(** * The Kubernetes job tracker of drmaa2os

    A shallow embedding of
    [pkg/jobtracker/kubernetestracker/kubernetestracker.go]: the allocator,
    the [KubernetesTracker] struct and its ten [jobtracker.JobTracker]
    methods.  The file is a dispatch layer: every method reads the two fields
    of the receiver, calls into the Kubernetes client or into a helper and
    translates the error.  The callees live in other files; they appear here
    as the fields of one record, [Collaborators], so that every theorem holds
    for whatever those callees do. *)

From Stdlib Require Import String List ZArith Bool Lia.
Import ListNotations.
Open Scope string_scope.

(** ** Go values *)

(** A Go [error] is nil or a value; the value is identified with the text
    its [Error()] method returns. *)
Definition error := option string.

(** The result of a Go call [(v, err)] whose caller tests [err != nil]
    before it looks at [v]: [inl v] stands for [(v, nil)], [inr msg] for an
    error with message [msg]. *)
Definition result (A : Type) : Type := (A + string)%type.

(** [fmt.Errorf(prefix + "%s", err.Error())] *)
Definition Errorf (prefix msg : string) : error := Some (prefix ++ msg).

(** [errors.New(msg)] *)
Definition errors_New (msg : string) : error := Some msg.

(** The package [drmaa2interface]: the job states. *)
Module drmaa2interface.

Inductive JobState : Type :=
| Unset | Undetermined | Queued | QueuedHeld | Running
| Suspended | Requeued | RequeuedHeld | Done | Failed.

Definition JobState_eqb (a b : JobState) : bool :=
  match a, b with
  | Unset, Unset | Undetermined, Undetermined | Queued, Queued
  | QueuedHeld, QueuedHeld | Running, Running | Suspended, Suspended
  | Requeued, Requeued | RequeuedHeld, RequeuedHeld | Done, Done
  | Failed, Failed => true
  | _, _ => false
  end.

End drmaa2interface.

(** [batchv1.Job], reduced to the metadata the tracker and its label
    convention touch. *)
Record Job : Type := { Name : string; Labels : list (string * string) }.

(** [batchv1.JobList] *)
Record JobList : Type := { Items : list Job }.

(** [k8sapi.ListOptions]: the fields that select or bound the listed
    objects.  A composite literal leaves every field it does not name at its
    zero value. *)
Record ListOptions : Type :=
  { LabelSelector : string; FieldSelector : string;
    Limit : Z; Continue : string }.

(** [k8sapi.CreateOptions] *)
Record CreateOptions : Type :=
  { DryRun : list string; FieldManager : string }.

(** [k8sapi.CreateOptions{}] *)
Definition CreateOptions_zero : CreateOptions :=
  {| DryRun := []; FieldManager := "" |}.

(** [time.Duration]: a count of nanoseconds. *)
Definition Duration := Z.

(** ** The [jobtracker.JobTracker] interface, seen from a helper

    [helper.AddArrayJobAsSingleJobs] and [helper.WaitForState] receive the
    tracker as a [jobtracker.JobTracker] interface value.  They live in
    another package, so all they can do with it is call its methods.  A
    helper is therefore a tree: it returns, or calls a method of the tracker
    it was given and goes on with the reply, or reads or writes the world
    outside the tracker (the clock, the cluster). *)
Section Interface.
Variables JobTemplate JobInfoT World : Type.

(** One method call on a [jobtracker.JobTracker], with its arguments. *)
Inductive Call : Type :=
| CallListJobCategories
| CallListJobs
| CallAddJob (jt : JobTemplate)
| CallAddArrayJob (jt : JobTemplate) (begin_ end_ step maxParallel : Z)
| CallListArrayJobs (id : string)
| CallJobState (jobid : string)
| CallJobInfo (jobid : string)
| CallJobControl (jobid state : string)
| CallWait (jobid : string) (timeout : Duration)
    (states : list drmaa2interface.JobState)
| CallDeleteJob (jobid : string).

(** What the method returns. *)
Definition Reply (c : Call) : Type :=
  match c with
  | CallListJobCategories | CallListJobs | CallListArrayJobs _ =>
      (list string * error)%type
  | CallAddJob _ | CallAddArrayJob _ _ _ _ _ => (string * error)%type
  | CallJobState _ => (drmaa2interface.JobState * string * error)%type
  | CallJobInfo _ => (JobInfoT * error)%type
  | CallJobControl _ _ | CallWait _ _ _ | CallDeleteJob _ => error
  end.

Inductive Helper (A : Type) : Type :=
| HRet (a : A)
| HInvoke (c : Call) (k : Reply c -> Helper A)
| HGet (k : World -> Helper A)
| HPut (w : World) (k : Helper A).

End Interface.

Arguments CallListJobCategories {JobTemplate}.
Arguments CallListJobs {JobTemplate}.
Arguments CallAddJob {JobTemplate} jt.
Arguments CallAddArrayJob {JobTemplate} jt begin_ end_ step maxParallel.
Arguments CallListArrayJobs {JobTemplate} id.
Arguments CallJobState {JobTemplate} jobid.
Arguments CallJobInfo {JobTemplate} jobid.
Arguments CallJobControl {JobTemplate} jobid state.
Arguments CallWait {JobTemplate} jobid timeout states.
Arguments CallDeleteJob {JobTemplate} jobid.
Arguments Reply {JobTemplate} JobInfoT c.
Arguments HRet {JobTemplate JobInfoT World A} a.
Arguments HInvoke {JobTemplate JobInfoT World A} c k.
Arguments HGet {JobTemplate JobInfoT World A} k.
Arguments HPut {JobTemplate JobInfoT World A} w k.

(** ** The code around the tracker

    Everything [kubernetestracker.go] calls and does not define.  [World] is
    all state outside the tracker struct: the cluster, the ambient client
    configuration, the clock.  A callee that is handed a client may read and
    change the world; [convertJob] and [ArrayJobID2GUIDs] are handed plain
    values only and are functions of them.  Every callee is taken to return:
    a run-time panic inside one of them is not part of the model. *)
Record Collaborators : Type := {
  (** the object a [*kubernetes.Clientset] points to *)
  Clientset : Type;
  (** [batchv1.JobInterface], the client of the Jobs API *)
  JobInterface : Type;
  (** [drmaa2interface.JobTemplate] *)
  JobTemplate : Type;
  (** [drmaa2interface.JobInfo] and its zero value [JobInfo{}] *)
  JobInfoT : Type;
  JobInfoT_zero : JobInfoT;
  World : Type;
  (** [NewClientSet()], returning a clientset pointer and an error *)
  NewClientSet : World -> result Clientset * World;
  (** [getJobsClient(cs) (JobInterface, error)] *)
  getJobsClient : option Clientset -> World -> result JobInterface * World;
  (** [convertJob(jobsession, jt)], returning a job pointer and an error *)
  convertJob : string -> JobTemplate -> result Job;
  (** [jc.List(ctx, opts)], returning a job list pointer and an error *)
  jc_List : JobInterface -> ListOptions -> World -> result JobList * World;
  (** [jc.Create(ctx, job, opts)], returning the created job and an error *)
  jc_Create :
    JobInterface -> Job -> CreateOptions -> World -> result Job * World;
  (** [DRMAA2State(jc, jobid) drmaa2interface.JobState] *)
  DRMAA2State :
    JobInterface -> string -> World -> drmaa2interface.JobState * World;
  (** [JobToJobInfo(jc, jobid) (drmaa2interface.JobInfo, error)] *)
  JobToJobInfo : JobInterface -> string -> World -> (JobInfoT * error) * World;
  (** [getJobInterfaceAndJob(cs, jobid) (JobInterface, *batchv1.Job, error)] *)
  getJobInterfaceAndJob :
    option Clientset -> string -> World ->
    result (JobInterface * Job) * World;
  (** [jobStateChange(jc, job, state) error] *)
  jobStateChange : JobInterface -> Job -> string -> World -> error * World;
  (** [deleteJob(jc, job) error] *)
  deleteJob : JobInterface -> Job -> World -> error * World;
  (** [helper.AddArrayJobAsSingleJobs(jt, tracker, begin, end, step)];
      the tracker argument is the object its [HInvoke] nodes call. *)
  AddArrayJobAsSingleJobs :
    JobTemplate -> Z -> Z -> Z ->
    Helper JobTemplate JobInfoT World (string * error);
  (** [helper.ArrayJobID2GUIDs(id) ([]string, error)] *)
  ArrayJobID2GUIDs : string -> list string * error;
  (** [helper.WaitForState(tracker, jobid, timeout, states...)] *)
  WaitForState :
    string -> Duration -> list drmaa2interface.JobState ->
    Helper JobTemplate JobInfoT World error
}.

Section Tracker.
Context (K : Collaborators).

(** [type KubernetesTracker struct]; [clientSet] is a pointer, [None] is
    the nil pointer. *)
Record KubernetesTracker : Type :=
  { clientSet : option (Clientset K); jobsession : string }.

(** What a method call can see and change: the struct its receiver [kt]
    points to, and the world. *)
Record Store : Type := { self : KubernetesTracker; world : World K }.

Definition with_world (st : Store) (w : World K) : Store :=
  {| self := self st; world := w |}.

(** A method with result type [A]. *)
Definition Method (A : Type) : Type := Store -> A * Store.

(** *** Construction *)

(** The [interface{}] value handed to the allocator: nil, a
    [*kubernetes.Clientset] (a pointer, possibly the nil pointer), or a
    value of another dynamic type. *)
Inductive OtherValue : Type :=
| OString (s : string)
| OInt (n : Z)
| OClientsetStruct (c : Clientset K).

Inductive InitParams : Type :=
| IP_nil
| IP_Clientset (p : option (Clientset K))
| IP_other (v : OtherValue).

(** [jobTrackerInitParams != nil] *)
Definition is_nil (p : InitParams) : bool :=
  match p with IP_nil => true | _ => false end.

(** The comma-ok type assertion of [jobTrackerInitParams] to a clientset
    pointer: [cs, ok = ...]. *)
Definition assert_Clientset (p : InitParams) : option (Clientset K) * bool :=
  match p with
  | IP_Clientset cs => (cs, true)
  | _ => (None, false)
  end.

(** The [jobtracker.JobTracker] interface value the allocator returns: the
    nil interface, or a [*KubernetesTracker] (a pointer, possibly nil). *)
Inductive JobTrackerValue : Type :=
| JT_nil
| JT_KubernetesTracker (p : option KubernetesTracker).

(** [func New(jobsession string, cs *kubernetes.Clientset)] *)
Definition New (jobsession : string) (cs : option (Clientset K)) (w : World K)
  : (option KubernetesTracker * error) * World K :=
  match cs with
  | None =>
      match NewClientSet K w with
      | (inr err, w1) => ((None, Some err), w1)
      | (inl cs1, w1) =>
          ((Some {| clientSet := Some cs1; jobsession := jobsession |}, None),
           w1)
      end
  | Some _ =>
      ((Some {| clientSet := cs; jobsession := jobsession |}, None), w)
  end.

(** [func (a *allocator) New(jobSessionName string,
    jobTrackerInitParams interface{})] *)
Definition allocator_New (jobSessionName : string)
    (jobTrackerInitParams : InitParams) (w : World K)
  : (JobTrackerValue * error) * World K :=
  let call_New (cs : option (Clientset K)) :=
    let '((kt, err), w1) := New jobSessionName cs w in
    ((JT_KubernetesTracker kt, err), w1) in
  if negb (is_nil jobTrackerInitParams) then
    let '(cs, ok) := assert_Clientset jobTrackerInitParams in
    if negb ok then
      ((JT_nil,
        errors_New "jobTrackerInitParams is not of type *kubernetes.Clientset"),
       w)
    else call_New cs
  else call_New None.

(** *** Methods that call no helper *)

Definition ListJobCategories : Method (list string * error) :=
  fun st => (([], None), st).

(** [for _, job := range jobsList.Items] with body
    [ids = append(ids, string(job.Name))] *)
Definition append_names (items : list Job) (ids : list string) : list string :=
  fold_left (fun ids job => (ids ++ [Name job])%list) items ids.

Definition ListJobs : Method (list string * error) :=
  fun st =>
    let kt := self st in
    match getJobsClient K (clientSet kt) (world st) with
    | (inr err, w1) => (([], Errorf "ListJobs: " err), with_world st w1)
    | (inl jc, w1) =>
        let labelSelector := "drmaa2jobsession=" ++ jobsession kt in
        match jc_List K jc
                {| LabelSelector := labelSelector; FieldSelector := "";
                   Limit := 0; Continue := "" |} w1 with
        | (inr err, w2) =>
            (([], Errorf "listing jobs with client: " err), with_world st w2)
        | (inl jobsList, w2) =>
            ((append_names (Items jobsList) [], None), with_world st w2)
        end
    end.

Definition AddJob (jt : JobTemplate K) : Method (string * error) :=
  fun st =>
    let kt := self st in
    match convertJob K (jobsession kt) jt with
    | inr err =>
        (("", Errorf "converting job template into a k8s job: " err), st)
    | inl job =>
        match getJobsClient K (clientSet kt) (world st) with
        | (inr err, w1) => (("", Errorf "get client: " err), with_world st w1)
        | (inl jc, w1) =>
            match jc_Create K jc job CreateOptions_zero w1 with
            | (inr err, w2) =>
                (("", Errorf "creating new job: " err), with_world st w2)
            | (inl j, w2) => ((Name j, None), with_world st w2)
            end
        end
    end.

Definition ListArrayJobs (id : string) : Method (list string * error) :=
  fun st => (ArrayJobID2GUIDs K id, st).

Definition JobState (jobid : string)
  : Method (drmaa2interface.JobState * string * error) :=
  fun st =>
    let kt := self st in
    match getJobsClient K (clientSet kt) (world st) with
    | (inr err, w1) =>
        ((drmaa2interface.Undetermined, "", None), with_world st w1)
    | (inl jc, w1) =>
        let '(s, w2) := DRMAA2State K jc jobid w1 in
        ((s, "", None), with_world st w2)
    end.

Definition JobInfo (jobid : string) : Method (JobInfoT K * error) :=
  fun st =>
    let kt := self st in
    match getJobsClient K (clientSet kt) (world st) with
    | (inr err, w1) => ((JobInfoT_zero K, Some err), with_world st w1)
    | (inl jc, w1) =>
        let '(r, w2) := JobToJobInfo K jc jobid w1 in
        (r, with_world st w2)
    end.

Definition JobControl (jobid state : string) : Method error :=
  fun st =>
    let kt := self st in
    match getJobInterfaceAndJob K (clientSet kt) jobid (world st) with
    | (inr err, w1) => (Errorf "JobControl: " err, with_world st w1)
    | (inl (jc, job), w1) =>
        let '(r, w2) := jobStateChange K jc job state w1 in
        (r, with_world st w2)
    end.

Definition DeleteJob (jobid : string) : Method error :=
  fun st =>
    let kt := self st in
    match getJobInterfaceAndJob K (clientSet kt) jobid (world st) with
    | (inr err, w1) => (Errorf "DeleteJob: " err, with_world st w1)
    | (inl (jc, job), w1) =>
        let '(r, w2) := deleteJob K jc job w1 in
        (r, with_world st w2)
    end.

(** *** Methods that hand the tracker to a helper

    A helper calls back into the tracker through the interface, and two of
    the methods it may call run a helper themselves.  [invoke depth] runs
    one method call and lets such calls nest [depth] deep; [None] means
    the nesting went deeper. *)

Definition Dispatch : Type :=
  forall c : Call (JobTemplate K),
    Store -> option (Reply (JobInfoT K) c * Store).

Fixpoint runHelper {A : Type} (disp : Dispatch)
    (h : Helper (JobTemplate K) (JobInfoT K) (World K) A) (st : Store)
  : option (A * Store) :=
  match h with
  | HRet a => Some (a, st)
  | HInvoke c k =>
      match disp c st with
      | Some (r, st1) => runHelper disp (k r) st1
      | None => None
      end
  | HGet k => runHelper disp (k (world st)) st
  | HPut w k => runHelper disp k (with_world st w)
  end.

(** [return helper.AddArrayJobAsSingleJobs(jt, kt, begin, end, step)],
    with [tracker] answering the calls made on [kt]. *)
Definition AddArrayJob_on (tracker : Dispatch) (jt : JobTemplate K)
    (begin_ end_ step maxParallel : Z)
  : Store -> option ((string * error) * Store) :=
  runHelper tracker (AddArrayJobAsSingleJobs K jt begin_ end_ step).

(** [return helper.WaitForState(kt, jobid, timeout, states...)] *)
Definition Wait_on (tracker : Dispatch) (jobid : string)
    (timeout : Duration) (states : list drmaa2interface.JobState)
  : Store -> option (error * Store) :=
  runHelper tracker (WaitForState K jobid timeout states).

(** The method set of [*KubernetesTracker]. *)
Fixpoint invoke (depth : nat) (c : Call (JobTemplate K))
  : Store -> option (Reply (JobInfoT K) c * Store) :=
  match depth with
  | O => fun _ => None
  | S d =>
      match c as c0 return Store -> option (Reply (JobInfoT K) c0 * Store) with
      | CallListJobCategories => fun st => Some (ListJobCategories st)
      | CallListJobs => fun st => Some (ListJobs st)
      | CallAddJob jt => fun st => Some (AddJob jt st)
      | CallAddArrayJob jt b e s mp => AddArrayJob_on (invoke d) jt b e s mp
      | CallListArrayJobs id => fun st => Some (ListArrayJobs id st)
      | CallJobState jobid => fun st => Some (JobState jobid st)
      | CallJobInfo jobid => fun st => Some (JobInfo jobid st)
      | CallJobControl jobid state => fun st => Some (JobControl jobid state st)
      | CallWait jobid timeout states => Wait_on (invoke d) jobid timeout states
      | CallDeleteJob jobid => fun st => Some (DeleteJob jobid st)
      end
  end.

Definition AddArrayJob (depth : nat) (jt : JobTemplate K)
    (begin_ end_ step maxParallel : Z)
  : Store -> option ((string * error) * Store) :=
  AddArrayJob_on (invoke depth) jt begin_ end_ step maxParallel.

Definition Wait (depth : nat) (jobid : string) (timeout : Duration)
    (states : list drmaa2interface.JobState)
  : Store -> option (error * Store) :=
  Wait_on (invoke depth) jobid timeout states.

(** The methods that run no helper themselves. *)
Definition plain_call (c : Call (JobTemplate K)) : bool :=
  match c with
  | CallAddArrayJob _ _ _ _ _ | CallWait _ _ _ => false
  | _ => true
  end.

(** A helper that calls such methods only. *)
Inductive Plain {A : Type}
  : Helper (JobTemplate K) (JobInfoT K) (World K) A -> Prop :=
| Plain_ret a : Plain (HRet a)
| Plain_invoke c k :
    plain_call c = true -> (forall r, Plain (k r)) -> Plain (HInvoke c k)
| Plain_get k : (forall w, Plain (k w)) -> Plain (HGet k)
| Plain_put w k : Plain k -> Plain (HPut w k).

End Tracker.

Arguments clientSet {K} k.
Arguments jobsession {K} k.
Arguments self {K} s.
Arguments world {K} s.
Arguments Build_Store {K} self world.
Arguments Build_KubernetesTracker {K} clientSet jobsession.
Arguments IP_nil {K}.
Arguments IP_Clientset {K} p.
Arguments IP_other {K} v.
Arguments JT_nil {K}.
Arguments JT_KubernetesTracker {K} p.

(** ** A small cluster

    One concrete choice of the collaborators, on which the tracker can be
    run: a cluster is the list of its jobs, a clientset is a number (0 is a
    clientset that cannot reach the Jobs API, 2 one whose list and create
    calls are refused), and every call that reaches a collaborator is
    written to a log. *)
Module Mini.

Record world : Type :=
  { jobs : list Job;            (* the Job objects of the cluster *)
    ambient : option nat;       (* what the ambient configuration yields *)
    calls : list string }.      (* the collaborator calls made so far *)

Definition logged (entry : string) (w : world) : world :=
  {| jobs := jobs w; ambient := ambient w; calls := calls w ++ [entry] |}.

Definition with_jobs (js : list Job) (w : world) : world :=
  {| jobs := js; ambient := ambient w; calls := calls w |}.

Record template : Type := { JobName : string; RemoteCommand : string }.

(** What is reported about a job: its id and its state. *)
Definition info : Type := (string * drmaa2interface.JobState)%type.

Definition has_label (selector : string) (j : Job) : bool :=
  existsb (fun kv => String.eqb (fst kv ++ "=" ++ snd kv) selector) (Labels j).

Definition named (id : string) (j : Job) : bool := String.eqb (Name j) id.

Definition mini_NewClientSet (w : world) : result nat * world :=
  match ambient w with
  | Some c => (inl c, logged "NewClientSet" w)
  | None => (inr "no cluster configuration found", logged "NewClientSet" w)
  end.

Definition mini_getJobsClient (cs : option nat) (w : world)
  : result nat * world :=
  match cs with
  | Some (S c) => (inl (S c), logged "getJobsClient" w)
  | _ => (inr "clientset has no batch client", logged "getJobsClient" w)
  end.

Definition mini_convertJob (session : string) (jt : template) : result Job :=
  if String.eqb (RemoteCommand jt) "" then inr "RemoteCommand not set"
  else inl {| Name := JobName jt;
              Labels := [("drmaa2jobsession", session)] |}.

Definition mini_List (jc : nat) (opts : ListOptions) (w : world)
  : result JobList * world :=
  let w1 := logged ("List " ++ LabelSelector opts) w in
  if Nat.eqb jc 2 then (inr "connection refused", w1)
  else
    (inl {| Items := filter (has_label (LabelSelector opts)) (jobs w) |}, w1).

Definition mini_Create (jc : nat) (job : Job) (opts : CreateOptions)
    (w : world) : result Job * world :=
  let w1 := logged ("Create " ++ Name job) w in
  if Nat.eqb jc 2 then (inr "connection refused", w1)
  else (inl job, with_jobs (jobs w ++ [job]) w1).

Definition mini_DRMAA2State (jc : nat) (jobid : string) (w : world)
  : drmaa2interface.JobState * world :=
  (if existsb (named jobid) (jobs w) then drmaa2interface.Running
   else drmaa2interface.Undetermined,
   logged ("Get " ++ jobid) w).

Definition mini_JobToJobInfo (jc : nat) (jobid : string) (w : world)
  : (info * error) * world :=
  (if existsb (named jobid) (jobs w)
   then ((jobid, drmaa2interface.Running), None)
   else (("", drmaa2interface.Unset), Some "job not found"),
   logged ("Get " ++ jobid) w).

Definition mini_getJobInterfaceAndJob (cs : option nat) (jobid : string)
    (w : world) : result (nat * Job) * world :=
  match cs, find (named jobid) (jobs w) with
  | Some (S c), Some j => (inl (S c, j), logged ("Get " ++ jobid) w)
  | Some (S c), None => (inr "job not found", logged ("Get " ++ jobid) w)
  | _, _ => (inr "clientset has no batch client", w)
  end.

Definition mini_deleteJob (jc : nat) (job : Job) (w : world) : error * world :=
  (None,
   with_jobs (filter (fun j => negb (named (Name job) j)) (jobs w))
     (logged ("Delete " ++ Name job) w)).

Definition mini_jobStateChange (jc : nat) (job : Job) (state : string)
    (w : world) : error * world :=
  if String.eqb state "terminate" then mini_deleteJob jc job w
  else (Some "unsupported operation", w).

(** Submits the template once per index, stopping at the first error. *)
Fixpoint submit_each (n : nat) (jt : template) (ids : list string)
  : Helper template info world (string * error) :=
  match n with
  | O => HRet (String.concat "," ids, None)
  | S m =>
      HInvoke (CallAddJob jt)
        (fun r : string * error =>
           match snd r with
           | Some e => HRet (String.concat "," ids, Some e)
           | None => submit_each m jt (ids ++ [fst r])
           end)
  end.

Definition mini_AddArrayJobAsSingleJobs (jt : template) (begin_ end_ step : Z)
  : Helper template info world (string * error) :=
  submit_each
    (if (0 <? step)%Z then Z.to_nat ((end_ - begin_) / step + 1) else 0%nat)
    jt [].

Definition mini_ArrayJobID2GUIDs (id : string) : list string * error :=
  if String.eqb id "" then ([], Some "empty array job id") else ([id], None).

(** Asks for the state once. *)
Definition mini_WaitForState (jobid : string) (timeout : Duration)
    (states : list drmaa2interface.JobState)
  : Helper template info world error :=
  HInvoke (CallJobState jobid)
    (fun r : drmaa2interface.JobState * string * error =>
       if existsb (drmaa2interface.JobState_eqb (fst (fst r))) states
       then HRet None
       else HRet (Some "timeout while waiting for job state")).

Definition cluster : Collaborators :=
  {| Clientset := nat;
     JobInterface := nat;
     JobTemplate := template;
     JobInfoT := info;
     JobInfoT_zero := ("", drmaa2interface.Unset);
     World := world;
     NewClientSet := mini_NewClientSet;
     getJobsClient := mini_getJobsClient;
     convertJob := mini_convertJob;
     jc_List := mini_List;
     jc_Create := mini_Create;
     DRMAA2State := mini_DRMAA2State;
     JobToJobInfo := mini_JobToJobInfo;
     getJobInterfaceAndJob := mini_getJobInterfaceAndJob;
     jobStateChange := mini_jobStateChange;
     deleteJob := mini_deleteJob;
     AddArrayJobAsSingleJobs := mini_AddArrayJobAsSingleJobs;
     ArrayJobID2GUIDs := mini_ArrayJobID2GUIDs;
     WaitForState := mini_WaitForState |}.

Definition tracker (cs : option nat) (session : string)
  : KubernetesTracker cluster :=
  Build_KubernetesTracker (K := cluster) cs session.

Definition job (name session : string) : Job :=
  {| Name := name; Labels := [("drmaa2jobsession", session)] |}.

(** Two sessions share the cluster; nothing has been called yet. *)
Definition w0 : world :=
  {| jobs := [job "a1" "alpha"; job "b1" "beta"; job "a2" "alpha"];
     ambient := Some 1%nat; calls := [] |}.

(** A machine without cluster configuration. *)
Definition w_unconfigured : world :=
  {| jobs := []; ambient := None; calls := [] |}.

Definition store (cs : option nat) (session : string) (w : world)
  : Store cluster :=
  Build_Store (K := cluster) (tracker cs session) w.

(** The tracker of session alpha with a working clientset, with a clientset
    that has no batch client, and with one whose calls are refused; the
    tracker of session beta. *)
Definition alpha : Store cluster := store (Some 1%nat) "alpha" w0.
Definition alpha_noclient : Store cluster := store (Some 0%nat) "alpha" w0.
Definition alpha_refused : Store cluster := store (Some 2%nat) "alpha" w0.
Definition beta : Store cluster := store (Some 1%nat) "beta" w0.

Definition sleep : template := {| JobName := "a3"; RemoteCommand := "sleep" |}.
Definition empty_template : template :=
  {| JobName := "a4"; RemoteCommand := "" |}.

End Mini.

(** ** Statements taken from the description of the tracker *)

(** The list query of a session: the label selector
    [drmaa2jobsession=<session>] and no other filter. *)
Definition session_query (session : string) : ListOptions :=
  {| LabelSelector := "drmaa2jobsession=" ++ session; FieldSelector := "";
     Limit := 0; Continue := "" |}.

(** "For a non-nil [initParams] the allocator returns a non-nil error
    exactly when [initParams] is not a clientset pointer", at one input. *)
Definition fails_iff_not_clientset (K : Collaborators) (name : string)
    (p : InitParams K) (w : World K) : Prop :=
  is_nil K p = false ->
  (snd (fst (allocator_New K name p w)) <> None
   <-> snd (assert_Clientset K p) = false).

(** [helper.WaitForState] applied to the tracker and the arguments of
    [Wait]. *)
Definition WaitForState_of_tracker (K : Collaborators) (depth : nat)
    (jobid : string) (timeout : Duration)
    (states : list drmaa2interface.JobState) (st : Store K)
  : option (error * Store K) :=
  runHelper K (invoke K depth) (WaitForState K jobid timeout states) st.

(** A dispatch that leaves the struct of the receiver alone. *)
Definition keeps_self (K : Collaborators) (disp : Dispatch K) : Prop :=
  forall c st r st', disp c st = Some (r, st') -> self st' = self st.

(** ** A caller and a helper of the tracker *)

(** A caller that makes the calls of [cs] on one tracker, one after the
    other, whatever they return. *)
Fixpoint run_calls (K : Collaborators) (depth : nat)
    (cs : list (Call (JobTemplate K))) (st : Store K) : option (Store K) :=
  match cs with
  | [] => Some st
  | c :: cs' =>
      match invoke K depth c st with
      | Some (_, st1) => run_calls K depth cs' st1
      | None => None
      end
  end.

(** A helper whose only dealings with the tracker are [AddJob] calls for
    the template [jt], and which does not write the world itself: what
    [helper.AddArrayJobAsSingleJobs] is described to do. *)
Inductive SubmitsOnly {K : Collaborators} (jt : JobTemplate K) {A : Type}
  : Helper (JobTemplate K) (JobInfoT K) (World K) A -> Prop :=
| SubmitsOnly_ret a : SubmitsOnly jt (HRet a)
| SubmitsOnly_invoke k :
    (forall r, SubmitsOnly jt (k r)) ->
    SubmitsOnly jt (HInvoke (CallAddJob jt) k)
| SubmitsOnly_get k :
    (forall w, SubmitsOnly jt (k w)) -> SubmitsOnly jt (HGet k).

(** ** Properties *)

Section Properties.
Context (K : Collaborators).

(** The loop of [ListJobs] appends the names in the order of the items. *)
Lemma append_names_map (items : list Job) (ids : list string) :
  append_names items ids = (ids ++ map Name items)%list.
Proof.
  unfold append_names. revert ids.
  induction items as [|job items IH]; intros ids; simpl.
  - now rewrite app_nil_r.
  - rewrite IH, <- app_assoc. reflexivity.
Qed.

(** *** The receiver's struct is never written *)

Ltac split_calls :=
  repeat match goal with
    | |- context [match ?x with _ => _ end] => destruct x
    | |- context [let '(_, _) := ?x in _] => destruct x
    end.

Lemma ListJobs_self st : self (snd (ListJobs K st)) = self st.
Proof. unfold ListJobs. split_calls; reflexivity. Qed.

Lemma AddJob_self jt st : self (snd (AddJob K jt st)) = self st.
Proof. unfold AddJob. split_calls; reflexivity. Qed.

Lemma JobState_self jobid st : self (snd (JobState K jobid st)) = self st.
Proof. unfold JobState. split_calls; reflexivity. Qed.

Lemma JobInfo_self jobid st : self (snd (JobInfo K jobid st)) = self st.
Proof. unfold JobInfo. split_calls; reflexivity. Qed.

Lemma JobControl_self jobid state st :
  self (snd (JobControl K jobid state st)) = self st.
Proof. unfold JobControl. split_calls; reflexivity. Qed.

Lemma DeleteJob_self jobid st : self (snd (DeleteJob K jobid st)) = self st.
Proof. unfold DeleteJob. split_calls; reflexivity. Qed.

(** A helper reaches the struct through method calls only, so it leaves it
    alone when the methods do. *)
Lemma runHelper_self {A : Type} (disp : Dispatch K) :
  keeps_self K disp ->
  forall (h : Helper (JobTemplate K) (JobInfoT K) (World K) A) st a st',
    runHelper K disp h st = Some (a, st') -> self st' = self st.
Proof.
  intros Hd h.
  induction h as [a0 | c k IH | k IH | w k IH]; simpl; intros st a st' E.
  - now inversion E.
  - destruct (disp c st) as [[r st1]|] eqn:Ec; [|discriminate].
    rewrite (IH r _ _ _ E). exact (Hd _ _ _ _ Ec).
  - exact (IH _ _ _ _ E).
  - now rewrite (IH _ _ _ E).
Qed.

Lemma invoke_self (depth : nat) : keeps_self K (invoke K depth).
Proof.
  induction depth as [|d IH]; intros c st r st' E; [discriminate|].
  destruct c; simpl in E;
    try (injection E as E; apply (f_equal snd) in E; simpl in E; subst st';
         first [ reflexivity | apply ListJobs_self | apply AddJob_self
               | apply JobState_self | apply JobInfo_self
               | apply JobControl_self | apply DeleteJob_self ]).
  - exact (runHelper_self (invoke K d) IH _ _ _ _ E).
  - exact (runHelper_self (invoke K d) IH _ _ _ _ E).
Qed.

(** *** Nesting depth *)



Lemma runHelper_HInvoke {A : Type} (disp : Dispatch K) c
    (k : Reply (JobInfoT K) c ->
         Helper (JobTemplate K) (JobInfoT K) (World K) A) st :
  runHelper K disp (HInvoke c k) st =
  match disp c st with
  | Some (r, st1) => runHelper K disp (k r) st1
  | None => None
  end.
Proof. reflexivity. Qed.

Lemma invoke_plain c st :
  plain_call K c = true -> exists r st1, invoke K 1 c st = Some (r, st1).
Proof.
  destruct c; intros H; try discriminate H; simpl;
    match goal with |- exists r st1, Some ?x = _ => destruct x; eauto end.
Qed.

(** A helper that only calls methods which run no helper returns, already
    at depth 1. *)
Lemma runHelper_Plain {A : Type}
    (h : Helper (JobTemplate K) (JobInfoT K) (World K) A) :
  Plain K h -> forall st, exists r, runHelper K (invoke K 1) h st = Some r.
Proof.
  induction 1 as [a | c k Hc Hk IH | k Hk IH | w k Hk IH]; intros st.
  - simpl. eauto.
  - destruct (invoke_plain c st Hc) as (r & st1 & E).
    rewrite runHelper_HInvoke, E. apply IH.
  - apply IH.
  - apply IH.
Qed.

Lemma Wait_returns jobid timeout states :
  Plain K (WaitForState K jobid timeout states) ->
  forall st, exists r, Wait K 1 jobid timeout states st = Some r.
Proof. intros H st. exact (runHelper_Plain _ H st). Qed.

Lemma AddArrayJob_returns jt b e s mp :
  Plain K (AddArrayJobAsSingleJobs K jt b e s) ->
  forall st, exists r, AddArrayJob K 1 jt b e s mp st = Some r.
Proof. intros H st. exact (runHelper_Plain _ H st). Qed.

(** *** The claims *)

(** C1. When [getJobsClient] fails on the tracker's clientset, [JobState]
    returns [Undetermined], an empty substate and a nil error, for every job
    id: the error of the client acquisition is dropped. *)
Theorem JobState_client_failure (jobid : string) (st : Store K)
    (err : string) (w1 : World K) :
  getJobsClient K (clientSet (self st)) (world st) = (inr err, w1) ->
  fst (JobState K jobid st) = (drmaa2interface.Undetermined, "", None).
Proof.
  intros E. unfold JobState. rewrite E. reflexivity.
Qed.

(** C2. [ListJobs] issues one list call, with the label selector
    [drmaa2jobsession=<session>] and no other filter.  When that call
    succeeds, [ListJobs] returns the names of the listed items, in the order
    of the list, and a nil error.  When the client cannot be obtained, or the
    list call fails, it returns a non-nil error. *)
Theorem ListJobs_session_query (st : Store K) :
  (forall jc w1 jobsList w2,
      getJobsClient K (clientSet (self st)) (world st) = (inl jc, w1) ->
      jc_List K jc (session_query (jobsession (self st))) w1
        = (inl jobsList, w2) ->
      ListJobs K st = ((map Name (Items jobsList), None), with_world K st w2))
  /\ (forall err w1,
      getJobsClient K (clientSet (self st)) (world st) = (inr err, w1) ->
      snd (fst (ListJobs K st)) <> None
      /\ world (snd (ListJobs K st)) = w1)
  /\ (forall jc w1 err w2,
      getJobsClient K (clientSet (self st)) (world st) = (inl jc, w1) ->
      jc_List K jc (session_query (jobsession (self st))) w1 = (inr err, w2) ->
      snd (fst (ListJobs K st)) <> None
      /\ world (snd (ListJobs K st)) = w2).
Proof.
  unfold ListJobs, session_query. split; [|split].
  - intros jc w1 jobsList w2 Ec El. rewrite Ec, El, append_names_map.
    reflexivity.
  - intros err w1 Ec. rewrite Ec. split; [discriminate | reflexivity].
  - intros jc w1 err w2 Ec El. rewrite Ec, El.
    split; [discriminate | reflexivity].
Qed.

(** C3. [AddJob] converts the template with the tracker's session name,
    creates the converted job in the cluster and returns the name of the
    created job with a nil error.  When the conversion fails it returns the
    empty string and an error whose message is the conversion prefix followed
    by the conversion error; when the create call fails it returns the empty
    string and the create error behind its own prefix. *)
Theorem AddJob_results (jt : JobTemplate K) (st : Store K) :
  (forall job jc w1 j w2,
      convertJob K (jobsession (self st)) jt = inl job ->
      getJobsClient K (clientSet (self st)) (world st) = (inl jc, w1) ->
      jc_Create K jc job CreateOptions_zero w1 = (inl j, w2) ->
      AddJob K jt st = ((Name j, None), with_world K st w2))
  /\ (forall err,
      convertJob K (jobsession (self st)) jt = inr err ->
      fst (AddJob K jt st)
        = ("", Some ("converting job template into a k8s job: " ++ err)))
  /\ (forall job jc w1 err w2,
      convertJob K (jobsession (self st)) jt = inl job ->
      getJobsClient K (clientSet (self st)) (world st) = (inl jc, w1) ->
      jc_Create K jc job CreateOptions_zero w1 = (inr err, w2) ->
      fst (AddJob K jt st) = ("", Some ("creating new job: " ++ err))).
Proof.
  unfold AddJob. repeat split.
  - intros job jc w1 j w2 Ej Ec Ecr. rewrite Ej, Ec, Ecr. reflexivity.
  - intros err Ej. rewrite Ej. reflexivity.
  - intros job jc w1 err w2 Ej Ec Ecr. rewrite Ej, Ec, Ecr. reflexivity.
Qed.

(** C4, as amended.  A non-nil [initParams] of another type than a clientset
    pointer gives the type error and the nil tracker.  A non-nil clientset
    pointer gives a nil error and a tracker with the given session name and
    that clientset.  A nil [initParams] and a nil clientset pointer are
    treated alike: the clientset is built by [NewClientSet]; when that
    succeeds the tracker has the session name and the new clientset, when it
    fails its error is returned. *)
Theorem allocator_New_cases (name : string) (w : World K) :
  (forall v,
      allocator_New K name (IP_other v) w
      = ((JT_nil,
          Some "jobTrackerInitParams is not of type *kubernetes.Clientset"),
         w))
  /\ (forall c,
      allocator_New K name (IP_Clientset (Some c)) w
      = ((JT_KubernetesTracker
            (Some {| clientSet := Some c; jobsession := name |}), None), w))
  /\ (forall p c w1,
      p = IP_nil \/ p = IP_Clientset None ->
      NewClientSet K w = (inl c, w1) ->
      allocator_New K name p w
      = ((JT_KubernetesTracker
            (Some {| clientSet := Some c; jobsession := name |}), None), w1))
  /\ (forall p err w1,
      p = IP_nil \/ p = IP_Clientset None ->
      NewClientSet K w = (inr err, w1) ->
      snd (fst (allocator_New K name p w)) = Some err).
Proof.
  repeat split.
  - intros p c w1 [-> | ->] E; unfold allocator_New, New; simpl;
      rewrite E; reflexivity.
  - intros p err w1 [-> | ->] E; unfold allocator_New, New; simpl;
      rewrite E; reflexivity.
Qed.

(** C5. [Wait] returns what [helper.WaitForState] returns when it is given
    the tracker, the job id, the timeout and the states: the same error, nil
    or not, and nothing is run besides the helper.  Called through the
    interface, [Wait] is that same run. *)
Theorem Wait_is_WaitForState (depth : nat) (jobid : string)
    (timeout : Duration) (states : list drmaa2interface.JobState)
    (st : Store K) :
  Wait K depth jobid timeout states st
    = WaitForState_of_tracker K depth jobid timeout states st
  /\ invoke K (S depth) (CallWait jobid timeout states) st
    = WaitForState_of_tracker K depth jobid timeout states st.
Proof. split; reflexivity. Qed.

(** C6. [ListJobCategories] returns the empty list and a nil error in every
    store, whatever the clientset is, and changes nothing. *)
Theorem ListJobCategories_empty (st : Store K) :
  ListJobCategories K st = (([], None), st).
Proof. reflexivity. Qed.

(** C7. Each of the ten methods leaves the struct of its receiver, the
    clientset pointer and the session name, as it found it; for the two
    methods that run a helper this holds whenever the call returns, whatever
    the helper calls on the tracker. *)
Theorem methods_keep_self (st : Store K) :
  self (snd (ListJobCategories K st)) = self st
  /\ self (snd (ListJobs K st)) = self st
  /\ (forall jt, self (snd (AddJob K jt st)) = self st)
  /\ (forall depth jt b e s mp r st',
      AddArrayJob K depth jt b e s mp st = Some (r, st') -> self st' = self st)
  /\ (forall id, self (snd (ListArrayJobs K id st)) = self st)
  /\ (forall jobid, self (snd (JobState K jobid st)) = self st)
  /\ (forall jobid, self (snd (JobInfo K jobid st)) = self st)
  /\ (forall jobid state, self (snd (JobControl K jobid state st)) = self st)
  /\ (forall depth jobid timeout states r st',
      Wait K depth jobid timeout states st = Some (r, st') ->
      self st' = self st)
  /\ (forall jobid, self (snd (DeleteJob K jobid st)) = self st).
Proof.
  repeat split; intros.
  - apply ListJobs_self.
  - apply AddJob_self.
  - exact (runHelper_self (invoke K depth) (invoke_self depth) _ _ _ _ H).
  - apply JobState_self.
  - apply JobInfo_self.
  - apply JobControl_self.
  - exact (runHelper_self (invoke K depth) (invoke_self depth) _ _ _ _ H).
  - apply DeleteJob_self.
Qed.

(** C8. [AddArrayJob] does not use [maxParallel]: two calls that differ in
    it alone have the same outcome, the same composite id, error and final
    store. *)
Theorem AddArrayJob_ignores_maxParallel (depth : nat) (jt : JobTemplate K)
    (begin_ end_ step maxParallel1 maxParallel2 : Z) (st : Store K) :
  AddArrayJob K depth jt begin_ end_ step maxParallel1 st
  = AddArrayJob K depth jt begin_ end_ step maxParallel2 st.
Proof. reflexivity. Qed.

(** C9. [JobState] returns a nil error and an empty substate for every job
    id and every store. *)
Theorem JobState_no_error (jobid : string) (st : Store K) :
  snd (fst (JobState K jobid st)) = None
  /\ snd (fst (fst (JobState K jobid st))) = "".
Proof.
  unfold JobState.
  destruct (getJobsClient K (clientSet (self st)) (world st)) as [[jc|err] w1].
  - destruct (DRMAA2State K jc jobid w1). split; reflexivity.
  - split; reflexivity.
Qed.

(** C10. When the conversion of the template fails, [AddJob] returns with
    the store as it was: neither [getJobsClient] nor the create call has
    run, whatever they would have done. *)
Theorem AddJob_conversion_failure_frame (jt : JobTemplate K) (st : Store K)
    (err : string) :
  convertJob K (jobsession (self st)) jt = inr err ->
  snd (AddJob K jt st) = st.
Proof.
  intros E. unfold AddJob. rewrite E. reflexivity.
Qed.

End Properties.

(** ** Runs on the small cluster *)

Lemma JobState_client_failure_run :
  getJobsClient Mini.cluster (clientSet (self Mini.alpha_noclient))
    (world Mini.alpha_noclient)
  = (inr "clientset has no batch client", Mini.logged "getJobsClient" Mini.w0)
  /\ fst (JobState Mini.cluster "a1" Mini.alpha_noclient)
     = (drmaa2interface.Undetermined, "", None).
Proof.
  split; [reflexivity|].
  exact (JobState_client_failure Mini.cluster "a1" Mini.alpha_noclient
           _ _ eq_refl).
Defined.

Lemma ListJobs_session_query_run :
  fst (ListJobs Mini.cluster Mini.alpha) = (["a1"; "a2"], None)
  /\ Mini.calls (world (snd (ListJobs Mini.cluster Mini.alpha)))
     = ["getJobsClient"; "List drmaa2jobsession=alpha"]
  /\ snd (fst (ListJobs Mini.cluster Mini.alpha_noclient)) <> None
  /\ snd (fst (ListJobs Mini.cluster Mini.alpha_refused)) <> None.
Proof.
  pose proof
    (proj1 (ListJobs_session_query Mini.cluster Mini.alpha)
       _ _ _ _ eq_refl eq_refl) as Hok.
  pose proof
    (proj1 (proj2 (ListJobs_session_query Mini.cluster Mini.alpha_noclient))
       _ _ eq_refl) as Hclient.
  pose proof
    (proj2 (proj2 (ListJobs_session_query Mini.cluster Mini.alpha_refused))
       _ _ _ _ eq_refl eq_refl) as Hlist.
  split; [|split; [|split]].
  - rewrite Hok. reflexivity.
  - rewrite Hok. reflexivity.
  - exact (proj1 Hclient).
  - exact (proj1 Hlist).
Defined.

Lemma AddJob_results_run :
  fst (AddJob Mini.cluster Mini.sleep Mini.alpha) = ("a3", None)
  /\ Mini.jobs (world (snd (AddJob Mini.cluster Mini.sleep Mini.alpha)))
     = (Mini.jobs Mini.w0 ++ [Mini.job "a3" "alpha"])%list
  /\ fst (AddJob Mini.cluster Mini.empty_template Mini.alpha)
     = ("",
        Some "converting job template into a k8s job: RemoteCommand not set")
  /\ fst (AddJob Mini.cluster Mini.sleep Mini.alpha_refused)
     = ("", Some "creating new job: connection refused").
Proof.
  pose proof
    (proj1 (AddJob_results Mini.cluster Mini.sleep Mini.alpha)
       _ _ _ _ _ eq_refl eq_refl eq_refl) as Hok.
  split; [|split; [|split]].
  - rewrite Hok. reflexivity.
  - rewrite Hok. reflexivity.
  - exact (proj1 (proj2 (AddJob_results Mini.cluster Mini.empty_template
                           Mini.alpha))
             _ eq_refl).
  - exact (proj2 (proj2 (AddJob_results Mini.cluster Mini.sleep
                           Mini.alpha_refused))
             _ _ _ _ _ eq_refl eq_refl eq_refl).
Defined.

(** A nil clientset pointer is a non-nil [initParams] of the clientset
    pointer type; on a machine without cluster configuration the allocator
    returns the error of [NewClientSet] for it. *)
Lemma allocator_New_nil_pointer_fails :
  ~ fails_iff_not_clientset Mini.cluster "alpha" (IP_Clientset None)
      Mini.w_unconfigured.
Proof.
  unfold fails_iff_not_clientset. intros H.
  destruct (H eq_refl) as [Himp _].
  assert (Hfalse :
            snd (assert_Clientset Mini.cluster (IP_Clientset None)) = false).
  { apply Himp. simpl. discriminate. }
  discriminate Hfalse.
Qed.

Lemma allocator_New_cases_run :
  allocator_New Mini.cluster "alpha" IP_nil Mini.w0
  = ((JT_KubernetesTracker (Some (Mini.tracker (Some 1%nat) "alpha")), None),
     Mini.logged "NewClientSet" Mini.w0)
  /\ snd (fst (allocator_New Mini.cluster "alpha" (IP_Clientset None)
                 Mini.w_unconfigured))
     = Some "no cluster configuration found".
Proof.
  split.
  - exact (proj1 (proj2 (proj2
             (allocator_New_cases Mini.cluster "alpha" Mini.w0)))
             IP_nil _ _ (or_introl eq_refl) eq_refl).
  - exact (proj2 (proj2 (proj2
             (allocator_New_cases Mini.cluster "alpha" Mini.w_unconfigured)))
             (IP_Clientset None) _ _ (or_intror eq_refl) eq_refl).
Defined.

Lemma methods_keep_self_run :
  (exists st',
      AddArrayJob Mini.cluster 1 Mini.sleep 1 3 1 0 Mini.alpha
      = Some (("a3,a3,a3", None), st')
      /\ length (Mini.jobs (world st')) = 6%nat
      /\ self st' = Mini.tracker (Some 1%nat) "alpha")
  /\ (exists st',
      Wait Mini.cluster 1 "a1" 1000%Z [drmaa2interface.Running] Mini.alpha
      = Some (None, st')
      /\ self st' = Mini.tracker (Some 1%nat) "alpha").
Proof.
  split.
  - eexists. split; [reflexivity|]. split; [reflexivity|].
    exact (proj1 (proj2 (proj2 (proj2
             (methods_keep_self Mini.cluster Mini.alpha))))
             1%nat Mini.sleep 1%Z 3%Z 1%Z 0%Z _ _ eq_refl).
  - eexists. split; [reflexivity|].
    exact (proj1 (proj2 (proj2 (proj2 (proj2 (proj2 (proj2 (proj2 (proj2
             (methods_keep_self Mini.cluster Mini.alpha)))))))))
             1%nat "a1" 1000%Z [drmaa2interface.Running] _ _ eq_refl).
Defined.

Lemma AddJob_conversion_failure_frame_run :
  convertJob Mini.cluster (jobsession (self Mini.alpha)) Mini.empty_template
  = inr "RemoteCommand not set"
  /\ snd (AddJob Mini.cluster Mini.empty_template Mini.alpha) = Mini.alpha.
Proof.
  split; [reflexivity|].
  exact (AddJob_conversion_failure_frame Mini.cluster Mini.empty_template
           Mini.alpha _ eq_refl).
Defined.

(** Two sessions on one cluster: each tracker lists its own jobs. *)
Example ListJobs_other_session :
  fst (ListJobs Mini.cluster Mini.beta) = (["b1"], None).
Proof. reflexivity. Qed.

(** A job that is not in the cluster never reaches [Running]: the helper's
    error comes back from [Wait] as it is. *)
Example Wait_timeout_run :
  option_map fst
    (Wait Mini.cluster 1 "zz" 1000%Z [drmaa2interface.Running] Mini.alpha)
  = Some (Some "timeout while waiting for job state").
Proof. reflexivity. Qed.

(** With no nesting allowed the helper's first call on the tracker is not
    answered. *)
Example Wait_depth_0 :
  Wait Mini.cluster 0 "a1" 1000%Z [drmaa2interface.Running] Mini.alpha = None.
Proof. reflexivity. Qed.


Example ListJobCategories_run :
  fst (ListJobCategories Mini.cluster
         (Mini.store None "alpha" Mini.w_unconfigured))
  = ([], None).
Proof. reflexivity. Qed.

Example JobState_run :
  fst (JobState Mini.cluster "a1" Mini.alpha)
  = (drmaa2interface.Running, "", None).
Proof. reflexivity. Qed.

Example DeleteJob_then_ListJobs :
  fst (ListJobs Mini.cluster (snd (DeleteJob Mini.cluster "a1" Mini.alpha)))
  = (["a2"], None).
Proof. reflexivity. Qed.

Example AddArrayJob_maxParallel_run :
  AddArrayJob Mini.cluster 1 Mini.sleep 1 3 1 1 Mini.alpha
  = AddArrayJob Mini.cluster 1 Mini.sleep 1 3 1 100 Mini.alpha.
Proof. reflexivity. Qed.

(** ** Further properties of the methods *)

Section MoreProperties.
Context (K : Collaborators).

(** Two texts behind one prefix are equal when the whole messages are. *)
Lemma append_same_prefix (p a b : string) : p ++ a = p ++ b -> a = b.
Proof.
  induction p as [|c p IH]; simpl; intros E; [exact E|].
  injection E as E. exact (IH E).
Qed.

(** A tracker that comes out of [New] has the session name it was given. *)
Lemma New_jobsession name cs w kt e w1 :
  New K name cs w = ((Some kt, e), w1) -> jobsession kt = name /\ e = None.
Proof.
  unfold New. destruct cs as [c|].
  - intros E. injection E as <- <- _. split; reflexivity.
  - destruct (NewClientSet K w) as [[c|err] w2]; intros E.
    + injection E as <- <- _. split; reflexivity.
    + discriminate E.
Qed.

Lemma allocator_New_jobsession name p w kt e w1 :
  allocator_New K name p w = ((JT_KubernetesTracker (Some kt), e), w1) ->
  jobsession kt = name /\ e = None.
Proof.
  unfold allocator_New.
  destruct p as [|cs|v]; cbn [is_nil assert_Clientset negb].
  - destruct (New K name None w) as [[kt0 e0] w2] eqn:EN. intros E.
    injection E as E1 E2 E3. subst kt0 e0.
    exact (New_jobsession _ _ _ _ _ _ EN).
  - destruct (New K name cs w) as [[kt0 e0] w2] eqn:EN. intros E.
    injection E as E1 E2 E3. subst kt0 e0.
    exact (New_jobsession _ _ _ _ _ _ EN).
  - discriminate.
Qed.

(** Running a helper that only submits a template which cannot be
    converted leaves the store as it was. *)
Lemma runHelper_SubmitsOnly {A : Type} (jt : JobTemplate K) (st : Store K)
    (err : string)
    (h : Helper (JobTemplate K) (JobInfoT K) (World K) A) :
  convertJob K (jobsession (self st)) jt = inr err ->
  SubmitsOnly jt h ->
  forall depth r st',
    runHelper K (invoke K depth) h st = Some (r, st') -> st' = st.
Proof.
  intros Ec Hs.
  induction Hs as [a | k Hk IH | k Hk IH]; intros depth r st' E.
  - simpl in E. now injection E as _ <-.
  - destruct depth as [|d]; [discriminate E|].
    rewrite runHelper_HInvoke in E.
    change (invoke K (S d) (CallAddJob jt) st)
      with (Some (AddJob K jt st)) in E.
    unfold AddJob in E. rewrite Ec in E.
    exact (IH _ _ _ _ E).
  - simpl in E. exact (IH _ _ _ _ E).
Qed.


(** X1. A failure of [getJobsClient] surfaces differently in the methods
    that acquire the client: [ListJobs] returns no ids and the message
    behind "ListJobs: "; [AddJob], once the template is converted, returns
    no id and the message behind "get client: "; [JobInfo] returns the zero
    [JobInfo] and the error itself, without a prefix.  In each case nothing
    else is called: the world is as [getJobsClient] left it. *)
Theorem client_failure_by_method (st : Store K) (err : string)
    (w1 : World K) :
  getJobsClient K (clientSet (self st)) (world st) = (inr err, w1) ->
  ListJobs K st = (([], Some ("ListJobs: " ++ err)), with_world K st w1)
  /\ (forall jt job,
        convertJob K (jobsession (self st)) jt = inl job ->
        AddJob K jt st
        = (("", Some ("get client: " ++ err)), with_world K st w1))
  /\ (forall jobid,
        JobInfo K jobid st = ((JobInfoT_zero K, Some err), with_world K st w1)).
Proof.
  intros E. split; [|split].
  - unfold ListJobs. rewrite E. reflexivity.
  - intros jt job Ej. unfold AddJob. rewrite Ej, E. reflexivity.
  - intros jobid. unfold JobInfo. rewrite E. reflexivity.
Qed.

(** X2. [AddJob] returns a nil error exactly when all three steps succeed:
    the conversion, the client acquisition and the create call.  Whenever it
    returns an error, the job id is the empty string. *)
Theorem AddJob_succeeds_iff (jt : JobTemplate K) (st : Store K) :
  (snd (fst (AddJob K jt st)) = None <->
   exists job jc w1 j w2,
     convertJob K (jobsession (self st)) jt = inl job
     /\ getJobsClient K (clientSet (self st)) (world st) = (inl jc, w1)
     /\ jc_Create K jc job CreateOptions_zero w1 = (inl j, w2))
  /\ (snd (fst (AddJob K jt st)) <> None -> fst (fst (AddJob K jt st)) = "").
Proof.
  unfold AddJob.
  destruct (convertJob K (jobsession (self st)) jt) as [job|e] eqn:Ej.
  - destruct (getJobsClient K (clientSet (self st)) (world st))
      as [[jc|e] w1] eqn:Ec.
    + destruct (jc_Create K jc job CreateOptions_zero w1) as [[j|e] w2] eqn:Ecr.
      * split; [split|]; simpl.
        -- intros _. exists job, jc, w1, j, w2.
           split; [reflexivity | split; [reflexivity | exact Ecr]].
        -- reflexivity.
        -- intros H. now elim H.
      * split; [split|]; simpl; try discriminate; try reflexivity.
        intros (job' & jc' & w1' & j' & w2' & H1 & H2 & H3).
        injection H1 as <-. injection H2 as <- <-. congruence.
    + split; [split|]; simpl; try discriminate; try reflexivity.
      intros (job' & jc' & w1' & j' & w2' & H1 & H2 & H3). discriminate H2.
  - split; [split|]; simpl; try discriminate; try reflexivity.
    intros (job' & jc' & w1' & j' & w2' & H1 & H2 & H3). discriminate H1.
Qed.

(** X3. [ListJobs] returns a nil error exactly when the client acquisition
    and the list call both succeed.  Whenever it returns an error, it
    returns no ids. *)
Theorem ListJobs_succeeds_iff (st : Store K) :
  (snd (fst (ListJobs K st)) = None <->
   exists jc w1 jobsList w2,
     getJobsClient K (clientSet (self st)) (world st) = (inl jc, w1)
     /\ jc_List K jc (session_query (jobsession (self st))) w1
        = (inl jobsList, w2))
  /\ (snd (fst (ListJobs K st)) <> None -> fst (fst (ListJobs K st)) = []).
Proof.
  unfold ListJobs, session_query.
  destruct (getJobsClient K (clientSet (self st)) (world st))
    as [[jc|e] w1] eqn:Ec.
  - match goal with
    | |- context [jc_List K jc ?o w1] =>
        destruct (jc_List K jc o w1) as [[jl|e] w2] eqn:El
    end.
    + split; [split|]; cbn [fst snd].
      * intros _. exists jc, w1, jl, w2. split; [reflexivity | exact El].
      * reflexivity.
      * intros H. now elim H.
    + split; [split|]; cbn [fst snd]; try discriminate; try reflexivity.
      intros (jc' & w1' & jl' & w2' & H1 & H2).
      injection H1 as <- <-.
      pose proof (eq_trans (eq_sym El) H2) as X. discriminate X.
  - split; [split|]; cbn [fst snd]; try discriminate; try reflexivity.
    intros (jc' & w1' & jl' & w2' & H1 & H2). discriminate H1.
Qed.

(** X4. The error message of [AddJob] tells which step failed.  A message
    that starts with the conversion prefix comes from a failed conversion
    and carries the conversion error; one that starts with "get client: "
    comes from a failed client acquisition after a successful conversion;
    one that starts with "creating new job: " comes from a failed create
    call after both succeeded. *)
Theorem AddJob_error_names_step (jt : JobTemplate K) (st : Store K)
    (e : string) :
  (snd (fst (AddJob K jt st))
   = Some ("converting job template into a k8s job: " ++ e) ->
   convertJob K (jobsession (self st)) jt = inr e)
  /\ (snd (fst (AddJob K jt st)) = Some ("get client: " ++ e) ->
      exists job w1,
        convertJob K (jobsession (self st)) jt = inl job
        /\ getJobsClient K (clientSet (self st)) (world st) = (inr e, w1))
  /\ (snd (fst (AddJob K jt st)) = Some ("creating new job: " ++ e) ->
      exists job jc w1 w2,
        convertJob K (jobsession (self st)) jt = inl job
        /\ getJobsClient K (clientSet (self st)) (world st) = (inl jc, w1)
        /\ jc_Create K jc job CreateOptions_zero w1 = (inr e, w2)).
Proof.
  unfold AddJob.
  destruct (convertJob K (jobsession (self st)) jt) as [job|e0] eqn:Ej.
  - destruct (getJobsClient K (clientSet (self st)) (world st))
      as [[jc|e0] w1] eqn:Ec.
    + destruct (jc_Create K jc job CreateOptions_zero w1)
        as [[j|e0] w2] eqn:Ecr; simpl; unfold Errorf.
      * repeat split; discriminate.
      * split; [|split]; intros H; injection H as H;
          try discriminate H.
        try apply append_same_prefix in H; subst e0.
        exists job, jc, w1, w2. repeat split; auto.
    + simpl; unfold Errorf.
      split; [|split]; intros H; injection H as H; try discriminate H.
      try apply append_same_prefix in H; subst e0.
      exists job, w1. repeat split; auto.
  - simpl; unfold Errorf.
    split; [|split]; intros H; injection H as H; try discriminate H.
    try apply append_same_prefix in H; now subst e0.
Qed.

(** [JobState] with a client: the state is the one [DRMAA2State]
    computes for the job id with that client, the substate is empty and the
    error nil; the world is as [DRMAA2State] left it. *)
Lemma JobState_with_client (jobid : string) (st : Store K)
    (jc : JobInterface K) (w1 : World K) :
  getJobsClient K (clientSet (self st)) (world st) = (inl jc, w1) ->
  JobState K jobid st
  = ((fst (DRMAA2State K jc jobid w1), "", None),
     with_world K st (snd (DRMAA2State K jc jobid w1))).
Proof.
  intros E. unfold JobState. rewrite E.
  destruct (DRMAA2State K jc jobid w1). reflexivity.
Qed.

(** [JobInfo] with a client returns what [JobToJobInfo] returns for the
    job id, the info and the error alike, without a prefix on the error. *)
Lemma JobInfo_with_client (jobid : string) (st : Store K)
    (jc : JobInterface K) (w1 : World K) :
  getJobsClient K (clientSet (self st)) (world st) = (inl jc, w1) ->
  JobInfo K jobid st
  = (fst (JobToJobInfo K jc jobid w1),
     with_world K st (snd (JobToJobInfo K jc jobid w1))).
Proof.
  intros E. unfold JobInfo. rewrite E.
  destruct (JobToJobInfo K jc jobid w1). reflexivity.
Qed.

(** X5. [JobControl] looks the job up first.  When the lookup fails, the
    state change is not attempted: the error is the lookup error behind
    "JobControl: " and the world is as the lookup left it.  When the lookup
    finds the job, [JobControl] returns what [jobStateChange] returns for
    that client, job and action, nil or not, without a prefix. *)
Theorem JobControl_cases (jobid state : string) (st : Store K) :
  (forall err w1,
      getJobInterfaceAndJob K (clientSet (self st)) jobid (world st)
      = (inr err, w1) ->
      JobControl K jobid state st
      = (Some ("JobControl: " ++ err), with_world K st w1))
  /\ (forall jc job w1,
      getJobInterfaceAndJob K (clientSet (self st)) jobid (world st)
      = (inl (jc, job), w1) ->
      JobControl K jobid state st
      = (fst (jobStateChange K jc job state w1),
         with_world K st (snd (jobStateChange K jc job state w1)))).
Proof.
  unfold JobControl. split.
  - intros err w1 E. rewrite E. reflexivity.
  - intros jc job w1 E. rewrite E.
    destruct (jobStateChange K jc job state w1). reflexivity.
Qed.

(** X6. [DeleteJob] looks the job up first.  When the lookup fails, nothing
    is deleted: the error is the lookup error behind "DeleteJob: " and the
    world is as the lookup left it.  When the lookup finds the job,
    [DeleteJob] returns what [deleteJob] returns for that client and job,
    without a prefix. *)
Theorem DeleteJob_cases (jobid : string) (st : Store K) :
  (forall err w1,
      getJobInterfaceAndJob K (clientSet (self st)) jobid (world st)
      = (inr err, w1) ->
      DeleteJob K jobid st = (Some ("DeleteJob: " ++ err), with_world K st w1))
  /\ (forall jc job w1,
      getJobInterfaceAndJob K (clientSet (self st)) jobid (world st)
      = (inl (jc, job), w1) ->
      DeleteJob K jobid st
      = (fst (deleteJob K jc job w1),
         with_world K st (snd (deleteJob K jc job w1)))).
Proof.
  unfold DeleteJob. split.
  - intros err w1 E. rewrite E. reflexivity.
  - intros jc job w1 E. rewrite E.
    destruct (deleteJob K jc job w1). reflexivity.
Qed.

(** X7. [New] returns a tracker or an error, never both and never
    neither.  A returned tracker has the session name it was given.  With a
    non-nil clientset [New] keeps that clientset and calls nothing: the
    world is unchanged.  With a nil clientset the error, if any, is the one
    of [NewClientSet], without a prefix. *)
Theorem New_tracker_or_error (name : string) (w : World K) :
  (forall cs,
      fst (fst (New K name cs w)) = None
      <-> snd (fst (New K name cs w)) <> None)
  /\ (forall cs kt,
      fst (fst (New K name cs w)) = Some kt -> jobsession kt = name)
  /\ (forall c,
      New K name (Some c) w
      = ((Some {| clientSet := Some c; jobsession := name |}, None), w))
  /\ (forall err w1,
      NewClientSet K w = (inr err, w1) ->
      New K name None w = ((None, Some err), w1)).
Proof.
  split; [|split; [|split]].
  - intros cs. unfold New. destruct cs as [c|]; simpl.
    + split; [discriminate | intros H; now elim H].
    + destruct (NewClientSet K w) as [[c|err] w1]; simpl.
      * split; [discriminate | intros H; now elim H].
      * split; [discriminate | reflexivity].
  - intros cs kt E.
    destruct (New K name cs w) as [[kt0 e0] w1] eqn:EN. simpl in E.
    subst kt0. exact (proj1 (New_jobsession _ _ _ _ _ _ EN)).
  - reflexivity.
  - intros err w1 E. unfold New. rewrite E. reflexivity.
Qed.

(** X8. The session name given to the allocator is the one the tracker
    works with: whatever [initParams] was, a tracker that the allocator
    returns comes with a nil error, and its [ListJobs] lists with the label
    selector of that name. *)
Theorem allocator_New_then_ListJobs (name : string) (p : InitParams K)
    (w w1 : World K) (kt : KubernetesTracker K) (e : error) :
  allocator_New K name p w = ((JT_KubernetesTracker (Some kt), e), w1) ->
  e = None
  /\ forall w' jc w2,
      getJobsClient K (clientSet kt) w' = (inl jc, w2) ->
      fst (ListJobs K {| self := kt; world := w' |})
      = match fst (jc_List K jc (session_query name) w2) with
        | inl jobsList => (map Name (Items jobsList), None)
        | inr err => ([], Some ("listing jobs with client: " ++ err))
        end.
Proof.
  intros E. destruct (allocator_New_jobsession _ _ _ _ _ _ E) as [Hn He].
  split; [exact He|].
  intros w' jc w2 Ec. unfold ListJobs, session_query. cbn [self world].
  rewrite Ec, Hn.
  match goal with
  | |- context [jc_List K jc ?o w2] =>
      destruct (jc_List K jc o w2) as [[jl|err] w3]
  end; cbn [fst].
  - now rewrite append_names_map.
  - reflexivity.
Qed.

(** X9. No sequence of method calls changes the tracker: after any calls
    that return, at any nesting depth, the clientset pointer and the session
    name are the ones before the first call, so [ListJobs] still acquires
    its client from the same clientset and lists with the label selector of
    the same session. *)
Theorem run_calls_keep_self (depth : nat) (cs : list (Call (JobTemplate K)))
    (st st' : Store K) :
  run_calls K depth cs st = Some st' ->
  self st' = self st
  /\ forall jc w1,
      getJobsClient K (clientSet (self st)) (world st') = (inl jc, w1) ->
      fst (ListJobs K st')
      = match fst (jc_List K jc (session_query (jobsession (self st))) w1) with
        | inl jobsList => (map Name (Items jobsList), None)
        | inr err => ([], Some ("listing jobs with client: " ++ err))
        end.
Proof.
  intros E.
  assert (Hs : self st' = self st).
  { revert st E. induction cs as [|c cs IH]; intros st E; simpl in E.
    - now injection E as <-.
    - destruct (invoke K depth c st) as [[r st1]|] eqn:Ei; [|discriminate].
      rewrite (IH _ E). exact (invoke_self K depth _ _ _ _ Ei). }
  split; [exact Hs|].
  intros jc w1 Ec. unfold ListJobs, session_query. rewrite Hs, Ec.
  match goal with
  | |- context [jc_List K jc ?o w1] =>
      destruct (jc_List K jc o w1) as [[jl|err] w2]
  end; cbn [fst].
  - now rewrite append_names_map.
  - reflexivity.
Qed.

(** X10. An array job of a template that cannot be converted creates
    nothing: when the helper does nothing with the tracker but submit the
    template, and the conversion of the template fails, [AddArrayJob]
    returns with the store, tracker and world, as it was. *)
Theorem AddArrayJob_unconvertible (depth : nat) (jt : JobTemplate K)
    (begin_ end_ step maxParallel : Z) (st st' : Store K) (err : string)
    (r : string * error) :
  convertJob K (jobsession (self st)) jt = inr err ->
  SubmitsOnly jt (AddArrayJobAsSingleJobs K jt begin_ end_ step) ->
  AddArrayJob K depth jt begin_ end_ step maxParallel st = Some (r, st') ->
  st' = st.
Proof.
  intros Ec Hs E. exact (runHelper_SubmitsOnly jt st err _ Ec Hs _ _ _ E).
Qed.


End MoreProperties.

(** ** Further runs on the small cluster *)

Lemma Mini_submit_each_SubmitsOnly n jt ids :
  SubmitsOnly (K := Mini.cluster) jt (Mini.submit_each n jt ids).
Proof.
  revert ids. induction n as [|n IH]; intros ids; simpl.
  - exact (@SubmitsOnly_ret Mini.cluster jt _ _).
  - apply (@SubmitsOnly_invoke Mini.cluster jt). intros r.
    destruct (snd r); [exact (@SubmitsOnly_ret Mini.cluster jt _ _) | apply IH].
Qed.


Lemma client_failure_by_method_run :
  ListJobs Mini.cluster Mini.alpha_noclient
  = (([], Some "ListJobs: clientset has no batch client"),
     with_world Mini.cluster Mini.alpha_noclient
       (Mini.logged "getJobsClient" Mini.w0))
  /\ fst (AddJob Mini.cluster Mini.sleep Mini.alpha_noclient)
     = ("", Some "get client: clientset has no batch client")
  /\ fst (JobInfo Mini.cluster "a1" Mini.alpha_noclient)
     = (("", drmaa2interface.Unset), Some "clientset has no batch client").
Proof.
  pose proof (client_failure_by_method Mini.cluster Mini.alpha_noclient
                _ _ eq_refl) as (HL & HA & HI).
  split; [exact HL | split].
  - rewrite (HA Mini.sleep _ eq_refl). reflexivity.
  - rewrite (HI "a1"). reflexivity.
Defined.

Lemma AddJob_succeeds_iff_run :
  snd (fst (AddJob Mini.cluster Mini.sleep Mini.alpha)) = None
  /\ fst (fst (AddJob Mini.cluster Mini.sleep Mini.alpha_refused)) = "".
Proof.
  split.
  - apply (proj1 (AddJob_succeeds_iff Mini.cluster Mini.sleep Mini.alpha)).
    do 5 eexists. repeat split; reflexivity.
  - apply (proj2 (AddJob_succeeds_iff Mini.cluster Mini.sleep
                    Mini.alpha_refused)).
    discriminate.
Defined.

Lemma ListJobs_succeeds_iff_run :
  snd (fst (ListJobs Mini.cluster Mini.alpha)) = None
  /\ fst (fst (ListJobs Mini.cluster Mini.alpha_refused)) = [].
Proof.
  split.
  - apply (proj1 (ListJobs_succeeds_iff Mini.cluster Mini.alpha)).
    do 4 eexists. split; reflexivity.
  - apply (proj2 (ListJobs_succeeds_iff Mini.cluster Mini.alpha_refused)).
    discriminate.
Defined.

Lemma AddJob_error_names_step_run :
  snd (fst (AddJob Mini.cluster Mini.sleep Mini.alpha_refused))
  = Some ("creating new job: " ++ "connection refused")
  /\ exists job jc w1 w2,
      convertJob Mini.cluster (jobsession (self Mini.alpha_refused)) Mini.sleep
      = inl job
      /\ getJobsClient Mini.cluster (clientSet (self Mini.alpha_refused))
           (world Mini.alpha_refused) = (inl jc, w1)
      /\ jc_Create Mini.cluster jc job CreateOptions_zero w1
         = (inr "connection refused", w2).
Proof.
  split; [reflexivity|].
  exact (proj2 (proj2 (AddJob_error_names_step Mini.cluster Mini.sleep
                         Mini.alpha_refused "connection refused"))
           eq_refl).
Defined.

Lemma JobState_with_client_run :
  getJobsClient Mini.cluster (clientSet (self Mini.alpha)) (world Mini.alpha)
  = (inl 1%nat, Mini.logged "getJobsClient" Mini.w0)
  /\ fst (JobState Mini.cluster "a1" Mini.alpha)
     = (drmaa2interface.Running, "", None).
Proof.
  split; [reflexivity|].
  rewrite (JobState_with_client Mini.cluster "a1" Mini.alpha _ _ eq_refl).
  reflexivity.
Defined.

Lemma JobInfo_with_client_run :
  getJobsClient Mini.cluster (clientSet (self Mini.alpha)) (world Mini.alpha)
  = (inl 1%nat, Mini.logged "getJobsClient" Mini.w0)
  /\ fst (JobInfo Mini.cluster "zz" Mini.alpha)
     = (("", drmaa2interface.Unset), Some "job not found").
Proof.
  split; [reflexivity|].
  rewrite (JobInfo_with_client Mini.cluster "zz" Mini.alpha _ _ eq_refl).
  reflexivity.
Defined.

Lemma JobControl_cases_run :
  JobControl Mini.cluster "zz" "terminate" Mini.alpha
  = (Some "JobControl: job not found",
     with_world Mini.cluster Mini.alpha (Mini.logged "Get zz" Mini.w0))
  /\ fst (JobControl Mini.cluster "a1" "suspend" Mini.alpha)
     = Some "unsupported operation"
  /\ fst (JobControl Mini.cluster "a1" "terminate" Mini.alpha) = None.
Proof.
  split; [|split].
  - exact (proj1 (JobControl_cases Mini.cluster "zz" "terminate" Mini.alpha)
             _ _ eq_refl).
  - rewrite (proj2 (JobControl_cases Mini.cluster "a1" "suspend" Mini.alpha)
               _ _ _ eq_refl).
    reflexivity.
  - rewrite (proj2 (JobControl_cases Mini.cluster "a1" "terminate" Mini.alpha)
               _ _ _ eq_refl).
    reflexivity.
Defined.

Lemma DeleteJob_cases_run :
  DeleteJob Mini.cluster "zz" Mini.alpha
  = (Some "DeleteJob: job not found",
     with_world Mini.cluster Mini.alpha (Mini.logged "Get zz" Mini.w0))
  /\ fst (DeleteJob Mini.cluster "a1" Mini.alpha) = None
  /\ map Name (Mini.jobs (world (snd (DeleteJob Mini.cluster "a1" Mini.alpha))))
     = ["b1"; "a2"].
Proof.
  split; [|split].
  - exact (proj1 (DeleteJob_cases Mini.cluster "zz" Mini.alpha) _ _ eq_refl).
  - rewrite (proj2 (DeleteJob_cases Mini.cluster "a1" Mini.alpha)
               _ _ _ eq_refl).
    reflexivity.
  - rewrite (proj2 (DeleteJob_cases Mini.cluster "a1" Mini.alpha)
               _ _ _ eq_refl).
    reflexivity.
Defined.

Lemma New_tracker_or_error_run :
  NewClientSet Mini.cluster Mini.w_unconfigured
  = (inr "no cluster configuration found",
     Mini.logged "NewClientSet" Mini.w_unconfigured)
  /\ New Mini.cluster "alpha" None Mini.w_unconfigured
     = ((None, Some "no cluster configuration found"),
        Mini.logged "NewClientSet" Mini.w_unconfigured).
Proof.
  split; [reflexivity|].
  exact (proj2 (proj2 (proj2
           (New_tracker_or_error Mini.cluster "alpha" Mini.w_unconfigured)))
           _ _ eq_refl).
Defined.

Lemma allocator_New_then_ListJobs_run :
  allocator_New Mini.cluster "alpha" IP_nil Mini.w0
  = ((JT_KubernetesTracker (Some (Mini.tracker (Some 1%nat) "alpha")), None),
     Mini.logged "NewClientSet" Mini.w0)
  /\ fst (ListJobs Mini.cluster Mini.alpha) = (["a1"; "a2"], None).
Proof.
  split; [reflexivity|].
  exact (proj2 (allocator_New_then_ListJobs Mini.cluster "alpha" IP_nil
                  Mini.w0 _ _ _ eq_refl)
           Mini.w0 _ _ eq_refl).
Defined.

Lemma run_calls_keep_self_run :
  exists st',
    run_calls Mini.cluster 2
      [CallAddJob Mini.sleep; CallDeleteJob "a1";
       CallWait "a3" 1000%Z [drmaa2interface.Running]; CallListJobs]
      Mini.alpha
    = Some st'
    /\ map Name (Mini.jobs (world st')) = ["b1"; "a2"; "a3"]
    /\ self st' = Mini.tracker (Some 1%nat) "alpha".
Proof.
  eexists. split; [vm_compute; reflexivity|]. split; [reflexivity|].
  exact (proj1 (run_calls_keep_self Mini.cluster 2
                  [CallAddJob Mini.sleep; CallDeleteJob "a1";
                   CallWait "a3" 1000%Z [drmaa2interface.Running];
                   CallListJobs]
                  Mini.alpha _ eq_refl)).
Defined.

Lemma AddArrayJob_unconvertible_run :
  convertJob Mini.cluster (jobsession (self Mini.alpha)) Mini.empty_template
  = inr "RemoteCommand not set"
  /\ exists r st',
      AddArrayJob Mini.cluster 1 Mini.empty_template 1 3 1 0 Mini.alpha
      = Some (r, st')
      /\ fst r = ""
      /\ st' = Mini.alpha.
Proof.
  split; [reflexivity|].
  eexists; eexists. split; [vm_compute; reflexivity|]. split; [reflexivity|].
  exact (AddArrayJob_unconvertible Mini.cluster 1 Mini.empty_template
           1 3 1 0 Mini.alpha _ "RemoteCommand not set" _ eq_refl
           (Mini_submit_each_SubmitsOnly _ _ _) eq_refl).
Defined.

